(** * The invoke-and-log wrapper of the launcher's version RPC module

    A shallow embedding of [invoke_and_log] and of the seven operations
    that delegate to it ([listDownloadedVersions], [downloadOfficialVersion],
    [removeVersion], [openVersionFolder], [getActiveVersion],
    [getActiveVersionFolder], [ensureActiveVersionStillExists]).

    The module is TypeScript: at run time the failure value caught by
    [invoke_and_log] is an arbitrary JavaScript value, so the embedding
    starts with the fragment of JavaScript the function exercises on it:
    property reads, truthiness, [typeof], template-literal string
    conversion and strict comparison with [false].

    The [status] handler of the main-process entry script is embedded on the
    same values ([MainProcess]). *)

From Stdlib Require Import String List Bool PrimFloat.
From ExtLib Require Import Structures.Monad Structures.MonadState Structures.MonadExc.
From ExtLib Require Import Data.Monads.StateMonad Data.Monads.EitherMonad.
Import ListNotations.
Import MonadNotation.
Local Open Scope string_scope.
Local Open Scope monad_scope.

(** ** JavaScript values *)

Set Warnings "-register-all".

Module Js.

(** Values that cross the IPC boundary are JSON data; [Undefined] is added
    because the module itself produces it.  An [Error] instance is
    represented by an [Object] listing its [name] and [message] (the
    prototype chain is flattened).  In an [Object] the first binding of a
    key is the property. *)
Inductive value : Type :=
| Undefined
| Null
| Bool (b : bool)
| Number (n : float)
| Str (s : string)
| Array (items : list value)
| Object (fields : list (string * value)).

(** Abrupt completions raised by the engine while the module runs. *)
Inductive exn : Type :=
| TypeError.

(** [typeof v] *)
Definition typeof (v : value) : string :=
  match v with
  | Undefined => "undefined"
  | Null => "object"
  | Bool _ => "boolean"
  | Number _ => "number"
  | Str _ => "string"
  | Array _ => "object"
  | Object _ => "object"
  end.

(** ToBoolean: the falsy values are [undefined], [null], [false], [+0],
    [-0], [NaN] and the empty string. *)
Definition ToBoolean (v : value) : bool :=
  match v with
  | Undefined => false
  | Null => false
  | Bool b => b
  | Number n => negb (PrimFloat.is_zero n || PrimFloat.is_nan n)
  | Str s => negb (String.eqb s "")
  | Array _ => true
  | Object _ => true
  end.

(** Own data property of an object literal. *)
Fixpoint own_property (fields : list (string * value)) (key : string)
  : option value :=
  match fields with
  | [] => None
  | (k, v) :: rest => if String.eqb k key then Some v else own_property rest key
  end.

(** [v.key] for a key that no built-in prototype of JSON data defines
    (as is the case of [name] and [message]): reading a property of
    [undefined] or [null] raises a TypeError, a primitive or an array has
    no such property, an object answers with its own one. *)
Definition Get (v : value) (key : string) : exn + value :=
  match v with
  | Undefined => inl TypeError
  | Null => inl TypeError
  | Object fields =>
      match own_property fields key with
      | Some x => inr x
      | None => inr Undefined
      end
  | _ => inr Undefined
  end.

(** [v !== false] *)
Definition strict_not_false (v : value) : bool :=
  match v with
  | Bool false => false
  | _ => true
  end.

Section ToString.

(** Number::toString (shortest round-trip decimal rendering) belongs to
    the language, not to the module: it is taken as given. *)
Variable Number_toString : float -> string.

(** [Array.prototype.join(",")] over renderings of the items, where
    [undefined] and [null] items render as the empty string. *)
Fixpoint join (rendered : list (exn + string)) : exn + string :=
  match rendered with
  | [] => inr ""
  | [r] => r
  | r :: rest =>
      match r with
      | inl x => inl x
      | inr s =>
          match join rest with
          | inl x => inl x
          | inr t => inr (s ++ "," ++ t)
          end
      end
  end.

(** ToString, as a template literal applies it to a substitution.  A
    plain object renders through [Object.prototype.toString]; an own
    [toString] property (never callable in JSON data) shadows it and
    leaves no way to a primitive, which raises a TypeError. *)
Fixpoint ToString (v : value) : exn + string :=
  match v with
  | Undefined => inr "undefined"
  | Null => inr "null"
  | Bool true => inr "true"
  | Bool false => inr "false"
  | Number n => inr (Number_toString n)
  | Str s => inr s
  | Array items =>
      join (map (fun item =>
                   match item with
                   | Undefined => inr ""
                   | Null => inr ""
                   | _ => ToString item
                   end) items)
  | Object fields =>
      match own_property fields "toString" with
      | Some _ => inl TypeError
      | None => inr "[object Object]"
      end
  end.

End ToString.

End Js.
Import Js.


(** ** Effects: the backend, the notification store and the log sinks *)

(** [InvokeArgs] of the IPC library: a mapping from parameter name to value. *)
Definition InvokeArgs : Type := list (string * value).

(** How the promise returned by [invoke] settles. *)
Inductive outcome : Type :=
| Resolved (v : value)
| Rejected (e : value).

(** What the collaborators of the module observe, in the order of the calls. *)
Inductive event : Type :=
| MakeToast (message : value) (level : string)
| ErrorLog (line : string)
| ExceptionLog (label : string) (payload : value).

Definition is_notification (ev : event) : bool :=
  match ev with MakeToast _ _ => true | _ => false end.

Definition is_exception_log (ev : event) : bool :=
  match ev with ExceptionLog _ _ => true | _ => false end.

Definition count (p : event -> bool) (evs : list event) : nat :=
  List.length (List.filter p evs).

(** A backend without state that settles every call the same way. *)
Definition settles_with (o : outcome)
  : string -> option InvokeArgs -> unit -> outcome * unit :=
  fun _ _ b => (o, b).

(** A rendering to instantiate [Number_toString] with in the examples; none
    of them renders a number. *)
Definition Number_toString_sample : float -> string :=
  fun _ => "NaN".

(** Failure values used in the examples. *)
Definition io_error : value :=
  Object [("name", Str "IOError"); ("message", Str "not found")].

Definition empty_name_failure : value :=
  Object [("name", Str ""); ("message", Str "boom")].

Definition zero_message_failure : value :=
  Object [("name", Str "E"); ("message", Number 0%float)].

Definition list_message_failure : value :=
  Object [("name", Str "E"); ("message", Array [Str "disk"; Str "full"])].

Definition unrenderable_name_failure : value :=
  Object [("name", Object [("toString", Null)]); ("message", Str "boom")].

(** ** The status handler of the main process

    [app.on('status', ...)] of the entry script: it forwards the status to
    the renderer of the main window and announces a finished build. *)

Module MainProcess.

(** What the handler asks of the window and of the notification centre. *)
Inductive request : Type :=
| Send (channel : string) (payload : value)
| ShowNotification (title : value) (body : string).

(** [s.includes(needle)] on strings: [needle] occurs somewhere in [s]. *)
Fixpoint string_includes (s needle : string) : bool :=
  String.prefix needle s ||
  match s with
  | EmptyString => false
  | String _ rest => string_includes rest needle
  end.

(** [value.includes(needle)] for a string [needle]: substring search on a
    string, membership on an array; any other value has no callable
    [includes], and the call raises a TypeError. *)
Definition includes (v : value) (needle : string) : exn + bool :=
  match v with
  | Str s => inr (string_includes s needle)
  | Array items =>
      inr (existsb (fun item =>
                      match item with
                      | Str t => String.eqb t needle
                      | _ => false
                      end) items)
  | _ => inl TypeError
  end.

(** The handler; [mainWindow] tells whether the variable of that name has
    been assigned a window yet.  The result lists the requests made, in
    order, and how the handler completed. *)
Definition on_status (mainWindow : bool) (v : value)
  : (exn + unit) * list request :=
  if mainWindow then
    match includes v "Compiled game successfully!" with
    | inl x => (inl x, [Send "status" v])
    | inr true =>
        (inr tt,
         [Send "status" v; ShowNotification v "Game ready to launch!"])
    | inr false => (inr tt, [Send "status" v])
    end
  else (inl TypeError, []).

End MainProcess.

Section Invoker.

(** The backend process is outside the module: it has a state of its own
    and settles each call as it pleases. *)
Variable B : Type.
Variable backend : string -> option InvokeArgs -> B -> outcome * B.
Variable Number_toString : float -> string.

(** The process-wide state a call can touch: the backend and the events
    recorded so far by the notification store and the log sinks. *)
Record world : Type := mkWorld {
  backend_state : B;
  events : list event
}.

(** Computations of the module: they may record events and may complete
    abruptly; what was recorded before an abrupt completion stays. *)
Definition M : Type -> Type := eitherT exn (state world).

Definition run {A : Type} (m : M A) (w : world) : (exn + A) * world :=
  runState (unEitherT m) w.

Definition emit (ev : event) : M unit :=
  w <- get ;;
  put (mkWorld (backend_state w) (events w ++ [ev])).

Definition completion {A : Type} (r : exn + A) : M A :=
  match r with
  | inl x => raise x
  | inr a => ret a
  end.

(** [await invoke(method, args)], with the settlement made explicit. *)
Definition invoke (method : string) (args : option InvokeArgs) : M outcome :=
  w <- get ;;
  let (o, b) := backend method args (backend_state w) in
  put (mkWorld b (events w)) ;;
  ret o.

(** Modelled from the spec: [toastStore.makeToast] of the notification
    store, which is not among the sources; the notification sink accepts a
    message and a severity level and displays it. *)
Definition makeToast (message : value) (level : string) : M unit :=
  emit (MakeToast message level).

(** Modelled from the spec: [errorLog] of the logging module, which is not
    among the sources; the plain-message error channel accepts a formatted
    string. *)
Definition errorLog (line : string) : M unit :=
  emit (ErrorLog line).

(** Modelled from the spec: [exceptionLog] of the logging module, which is
    not among the sources; the exception channel accepts a label plus an
    arbitrary value. *)
Definition exceptionLog (label : string) (payload : value) : M unit :=
  emit (ExceptionLog label payload).

(** ** The invoker *)

(** [e.name && e.message], as the condition of an [if]. *)
Definition name_and_message (e : value) : M bool :=
  name <- completion (Get e "name") ;;
  if ToBoolean name
  then message <- completion (Get e "message") ;; ret (ToBoolean message)
  else ret false.

(** The [catch] block up to, and without, [return handle(e)]. *)
Definition report (method : string) (e : value) : M unit :=
  name_and_message_hold <- name_and_message e ;;
  if name_and_message_hold then
    message <- completion (Get e "message") ;;
    makeToast message "error" ;;
    name <- completion (Get e "name") ;;
    name_text <- completion (ToString Number_toString name) ;;
    message <- completion (Get e "message") ;;
    message_text <- completion (ToString Number_toString message) ;;
    errorLog ("Error invoking " ++ method ++ ": (" ++ name_text ++ ") " ++ message_text)
  else if String.eqb (typeof e) "string" then
    makeToast e "error" ;;
    text <- completion (ToString Number_toString e) ;;
    errorLog ("Error invoking " ++ method ++ ": " ++ text)
  else
    exceptionLog ("Error invoking " ++ method) e.

(** The [try] block holds the single [await]: a resolution is returned as
    it is, a rejection enters the [catch] block with the rejection value.
    The fallback producer [handle] is a function of the failure value: every
    call site passes an arrow function that returns a constant. *)
Definition invoke_and_log (method : string) (handle : value -> value)
  (args : option InvokeArgs) : M value :=
  settled <- invoke method args ;;
  match settled with
  | Resolved v => ret v
  | Rejected e => report method e ;; ret (handle e)
  end.

(** ** The exposed operations *)

Inductive VersionFolders : Type :=
| folder_null
| official
| unofficial
| devel.

Definition folder_value (folder : VersionFolders) : value :=
  match folder with
  | folder_null => Null
  | official => Str "official"
  | unofficial => Str "unofficial"
  | devel => Str "devel"
  end.

Definition listDownloadedVersions (folder : VersionFolders) : M value :=
  invoke_and_log "list_downloaded_versions" (fun _ => Array [])
    (Some [("versionFolder", folder_value folder)]).

Definition downloadOfficialVersion (version url : string) : M bool :=
  success <- invoke_and_log "download_version" (fun _ => Bool false)
               (Some [("version", Str version);
                      ("versionFolder", Str "official");
                      ("url", Str url)]) ;;
  ret (strict_not_false success).

Definition removeVersion (version versionFolder : string) : M bool :=
  success <- invoke_and_log "remove_version" (fun _ => Bool false)
               (Some [("version", Str version);
                      ("versionFolder", Str versionFolder)]) ;;
  ret (strict_not_false success).

Definition openVersionFolder (folder : VersionFolders) : M value :=
  invoke_and_log "open_version_folder" (fun _ => Undefined)
    (Some [("versionFolder", folder_value folder)]).

Definition getActiveVersion : M value :=
  invoke_and_log "get_active_tooling_version" (fun _ => Null) None.

Definition getActiveVersionFolder : M value :=
  invoke_and_log "get_active_tooling_version_folder" (fun _ => Null) None.

Definition ensureActiveVersionStillExists : M value :=
  invoke_and_log "ensure_active_version_still_exists" (fun _ => Bool false) None.

(** ** Shapes of a failure value *)

Definition is_nullish (e : value) : bool :=
  match e with
  | Undefined => true
  | Null => true
  | _ => false
  end.

(** The test [e.name && e.message] on a value that has properties. *)
Definition structured (e : value) : bool :=
  match Get e "name" with
  | inr name =>
      ToBoolean name &&
      match Get e "message" with
      | inr message => ToBoolean message
      | inl _ => false
      end
  | inl _ => false
  end.

(** Whether a template literal can render [v]. *)
Definition renders (v : value) : bool :=
  match ToString Number_toString v with
  | inr _ => true
  | inl _ => false
  end.

(** The failure values on which the [catch] block itself raises: [null] and
    [undefined], on the read of [e.name], and the values with a truthy
    [name] and [message] of which one cannot be rendered into the log
    line. *)
Definition report_raises (e : value) : bool :=
  is_nullish e ||
  (structured e &&
   match Get e "name", Get e "message" with
   | inr name, inr message => negb (renders name && renders message)
   | _, _ => false
   end).

(** What the [catch] block records for a plain-string failure [s]. *)
Definition plain_failure_events (method s : string) : list event :=
  [MakeToast (Str s) "error";
   ErrorLog ("Error invoking " ++ method ++ ": " ++ s)].

(** A computation that returns [v] and records nothing. *)
Definition returns_quietly (m : M value) (w : world) (v : value) : Prop :=
  fst (run m w) = inr v /\ events (snd (run m w)) = events w.

(** ** Running computations *)

Lemma run_ret {A : Type} (a : A) (w : world) :
  run (ret a) w = (inr a, w).
Proof. reflexivity. Qed.

Lemma run_bind {A C : Type} (m : M A) (f : A -> M C) (w : world) :
  run (bind m f) w =
  match run m w with
  | (inl x, w') => (inl x, w')
  | (inr a, w') => run (f a) w'
  end.
Proof.
  unfold run. cbn.
  destruct (runState (unEitherT m) w) as [[x | a] w']; reflexivity.
Qed.

Lemma run_completion {A : Type} (r : exn + A) (w : world) :
  run (completion r) w = (r, w).
Proof. destruct r; reflexivity. Qed.

Lemma run_emit (ev : event) (w : world) :
  run (emit ev) w = (inr tt, mkWorld (backend_state w) (events w ++ [ev])).
Proof. reflexivity. Qed.

Lemma run_invoke (method : string) (args : option InvokeArgs) (w : world) :
  run (invoke method args) w =
  (inr (fst (backend method args (backend_state w))),
   mkWorld (snd (backend method args (backend_state w))) (events w)).
Proof.
  unfold run, invoke. cbn.
  destruct (backend method args (backend_state w)) as [o b]. reflexivity.
Qed.

(** [invoke_and_log] is its backend call followed, on a rejection, by
    [report] and the fallback producer. *)
Lemma run_invoke_and_log (method : string) (handle : value -> value)
  (args : option InvokeArgs) (w : world) :
  run (invoke_and_log method handle args) w =
  match backend method args (backend_state w) with
  | (Resolved v, b) => (inr v, mkWorld b (events w))
  | (Rejected e, b) =>
      match run (report method e) (mkWorld b (events w)) with
      | (inl x, w') => (inl x, w')
      | (inr _, w') => (inr (handle e), w')
      end
  end.
Proof.
  unfold invoke_and_log. rewrite run_bind, run_invoke.
  destruct (backend method args (backend_state w)) as [[v | e] b]; cbn [fst snd].
  - apply run_ret.
  - rewrite run_bind.
    destruct (run (report method e) (mkWorld b (events w))) as [[x | u] w'];
      [reflexivity | apply run_ret].
Qed.

(** ** The three branches of the [catch] block *)

Lemma run_name_and_message (e : value) (w : world) :
  is_nullish e = false ->
  run (name_and_message e) w = (inr (structured e), w).
Proof.
  intros Hn. unfold name_and_message, structured.
  rewrite run_bind, run_completion.
  destruct e; try discriminate Hn; cbn [Get ToBoolean andb];
    try apply run_ret.
  destruct (own_property fields "name") as [name |]; [| apply run_ret].
  destruct (ToBoolean name); [| apply run_ret].
  rewrite run_bind, run_completion. cbn [andb].
  destruct (own_property fields "message"); apply run_ret.
Qed.

Lemma run_report_nullish (method : string) (e : value) (w : world) :
  is_nullish e = true ->
  run (report method e) w = (inl TypeError, w).
Proof.
  intros Hn. destruct e; try discriminate Hn; reflexivity.
Qed.

Lemma run_report_structured (method : string) (fields : list (string * value))
  (name message : value) (name_text message_text : string) (w : world) :
  own_property fields "name" = Some name ->
  own_property fields "message" = Some message ->
  ToBoolean name = true ->
  ToBoolean message = true ->
  ToString Number_toString name = inr name_text ->
  ToString Number_toString message = inr message_text ->
  run (report method (Object fields)) w =
  (inr tt,
   mkWorld (backend_state w)
     (events w ++
      [MakeToast message "error";
       ErrorLog ("Error invoking " ++ method ++ ": (" ++ name_text ++ ") "
                 ++ message_text)])).
Proof.
  intros Hname Hmessage Tname Tmessage Sname Smessage.
  unfold report. rewrite run_bind, run_name_and_message by reflexivity.
  unfold structured. cbn [Get]. rewrite Hname, Hmessage, Tname, Tmessage.
  cbn [andb]. unfold makeToast, errorLog.
  repeat (rewrite ?run_bind, ?run_completion, ?run_emit, ?Sname, ?Smessage;
          cbv beta iota).
  cbn [backend_state events]. rewrite <- app_assoc. reflexivity.
Qed.

Lemma run_report_string (method s : string) (w : world) :
  run (report method (Str s)) w =
  (inr tt,
   mkWorld (backend_state w)
     (events w ++
      [MakeToast (Str s) "error";
       ErrorLog ("Error invoking " ++ method ++ ": " ++ s)])).
Proof.
  unfold run. cbn. rewrite <- app_assoc. reflexivity.
Qed.

Lemma run_report_opaque (method : string) (e : value) (w : world) :
  is_nullish e = false ->
  structured e = false ->
  String.eqb (typeof e) "string" = false ->
  run (report method e) w =
  (inr tt,
   mkWorld (backend_state w)
     (events w ++ [ExceptionLog ("Error invoking " ++ method) e])).
Proof.
  intros Hn Hs Ht. unfold report.
  rewrite run_bind, run_name_and_message by exact Hn.
  rewrite Hs, Ht. reflexivity.
Qed.

(** ** The contract of [invoke_and_log] *)

(** C3: when the backend call resolves with [v], [invoke_and_log] returns
    exactly [v] and records nothing: no notification, no error-log line and
    no exception-log entry is added to the events. *)
Theorem invoke_and_log_resolved (method : string) (handle : value -> value)
  (args : option InvokeArgs) (w : world) (v : value) (b : B) :
  backend method args (backend_state w) = (Resolved v, b) ->
  run (invoke_and_log method handle args) w = (inr v, mkWorld b (events w)).
Proof.
  intros Hb. rewrite run_invoke_and_log, Hb. reflexivity.
Qed.

(** C5: when the backend call rejects with a plain string [s],
    [invoke_and_log] shows exactly one error notification carrying [s],
    writes exactly one error-log line [Error invoking <method>: <s>], and
    returns the fallback producer's result. *)
Theorem invoke_and_log_rejected_string (method : string)
  (handle : value -> value) (args : option InvokeArgs) (w : world)
  (s : string) (b : B) :
  backend method args (backend_state w) = (Rejected (Str s), b) ->
  run (invoke_and_log method handle args) w =
  (inr (handle (Str s)),
   mkWorld b
     (events w ++
      [MakeToast (Str s) "error";
       ErrorLog ("Error invoking " ++ method ++ ": " ++ s)])).
Proof.
  intros Hb. rewrite run_invoke_and_log, Hb, run_report_string. reflexivity.
Qed.

Lemma ToBoolean_Str (s : string) : s <> "" -> ToBoolean (Str s) = true.
Proof.
  intros Hs. cbn. destruct (String.eqb_spec s ""); [contradiction | reflexivity].
Qed.

(** C2, amended: when the backend call rejects with a value whose [name]
    and [message] fields are both non-empty strings, [invoke_and_log] shows
    exactly one error notification whose text is [message], writes exactly
    one error-log line [Error invoking <method>: (<name>) <message>], and
    returns the fallback producer's result applied to the failure value. *)
Theorem invoke_and_log_rejected_structured (method : string)
  (handle : value -> value) (args : option InvokeArgs) (w : world)
  (fields : list (string * value)) (name message : string) (b : B) :
  own_property fields "name" = Some (Str name) ->
  own_property fields "message" = Some (Str message) ->
  name <> "" ->
  message <> "" ->
  backend method args (backend_state w) = (Rejected (Object fields), b) ->
  run (invoke_and_log method handle args) w =
  (inr (handle (Object fields)),
   mkWorld b
     (events w ++
      [MakeToast (Str message) "error";
       ErrorLog ("Error invoking " ++ method ++ ": (" ++ name ++ ") "
                 ++ message)])).
Proof.
  intros Hname Hmessage Nname Nmessage Hb.
  rewrite run_invoke_and_log, Hb.
  rewrite (run_report_structured method fields (Str name) (Str message)
             name message);
    auto using ToBoolean_Str.
Qed.

(** C9: when the backend call rejects with an object that has both a
    [name] and a [message] property of which at least one is falsy, the
    failure is handled as opaque: no notification is shown, the only event
    is one exception-log entry, and the fallback producer's result is
    returned. *)
Theorem invoke_and_log_rejected_falsy_field (method : string)
  (handle : value -> value) (args : option InvokeArgs) (w : world)
  (fields : list (string * value)) (name message : value) (b : B) :
  own_property fields "name" = Some name ->
  own_property fields "message" = Some message ->
  ToBoolean name && ToBoolean message = false ->
  backend method args (backend_state w) = (Rejected (Object fields), b) ->
  run (invoke_and_log method handle args) w =
  (inr (handle (Object fields)),
   mkWorld b
     (events w ++ [ExceptionLog ("Error invoking " ++ method) (Object fields)])).
Proof.
  intros Hname Hmessage Hfalsy Hb.
  rewrite run_invoke_and_log, Hb, run_report_opaque; try reflexivity.
  unfold structured. cbn [Get]. rewrite Hname, Hmessage. exact Hfalsy.
Qed.

(** C8: two calls in a row with the same inputs, against a backend that
    resolves both with the same value [v], both return [v]; the second call
    sees nothing of the first, and the recorded events are as before. *)
Theorem invoke_and_log_twice (method : string) (handle : value -> value)
  (args : option InvokeArgs) (w : world) (v : value) (b1 b2 : B) :
  backend method args (backend_state w) = (Resolved v, b1) ->
  backend method args b1 = (Resolved v, b2) ->
  run (first <- invoke_and_log method handle args ;;
       second <- invoke_and_log method handle args ;;
       ret (first, second)) w =
  (inr (v, v), mkWorld b2 (events w)).
Proof.
  intros H1 H2.
  rewrite run_bind, run_invoke_and_log, H1.
  rewrite run_bind, run_invoke_and_log. cbn [backend_state events].
  rewrite H2. apply run_ret.
Qed.

(** ** Rejections with [null] or [undefined]

    The [catch] block starts by reading [e.name].  When the rejection value
    is [null] or [undefined] that read raises a TypeError inside the
    handler, before anything is shown or logged and before the fallback
    producer is reached. *)

(** C1: a rejection with [null] or [undefined] makes [invoke_and_log]
    complete abruptly with a TypeError instead of returning a value; the
    events are left as they were. *)
Theorem invoke_and_log_rejected_nullish (method : string)
  (handle : value -> value) (args : option InvokeArgs) (w : world)
  (e : value) (b : B) :
  is_nullish e = true ->
  backend method args (backend_state w) = (Rejected e, b) ->
  run (invoke_and_log method handle args) w =
  (inl TypeError, mkWorld b (events w)).
Proof.
  intros Hn Hb. rewrite run_invoke_and_log, Hb, run_report_nullish by exact Hn.
  reflexivity.
Qed.

(** C6: on a rejection with [null] or [undefined] neither a notification
    nor an exception-log entry is emitted, and no value is returned. *)
Theorem nullish_rejection_emits_neither (method : string)
  (handle : value -> value) (args : option InvokeArgs) (w : world)
  (e : value) (b : B) :
  is_nullish e = true ->
  backend method args (backend_state w) = (Rejected e, b) ->
  fst (run (invoke_and_log method handle args) w) = inl TypeError /\
  count is_notification
    (events (snd (run (invoke_and_log method handle args) w))) =
  count is_notification (events w) /\
  count is_exception_log
    (events (snd (run (invoke_and_log method handle args) w))) =
  count is_exception_log (events w).
Proof.
  intros Hn Hb. rewrite run_invoke_and_log, Hb, run_report_nullish by exact Hn.
  cbn [fst snd events]. auto.
Qed.

(** C4: when the call behind [listDownloadedVersions] rejects with the
    opaque value [null], no exception-log entry is recorded and the
    operation does not return the empty sequence: it completes abruptly. *)
Theorem listDownloadedVersions_rejected_null (folder : VersionFolders)
  (w : world) (b : B) :
  backend "list_downloaded_versions"
    (Some [("versionFolder", folder_value folder)]) (backend_state w) =
  (Rejected Null, b) ->
  run (listDownloadedVersions folder) w = (inl TypeError, mkWorld b (events w)).
Proof.
  intros Hb. unfold listDownloadedVersions.
  rewrite run_invoke_and_log, Hb. reflexivity.
Qed.

(** C7: [downloadOfficialVersion] calls [download_version] with
    [{version, versionFolder: "official", url}]; when that call rejects with
    [null] or [undefined] the operation does not return [false]: it
    completes abruptly. *)
Theorem downloadOfficialVersion_rejected_nullish (version url : string)
  (w : world) (e : value) (b : B) :
  is_nullish e = true ->
  backend "download_version"
    (Some [("version", Str version); ("versionFolder", Str "official");
           ("url", Str url)]) (backend_state w) =
  (Rejected e, b) ->
  run (downloadOfficialVersion version url) w =
  (inl TypeError, mkWorld b (events w)).
Proof.
  intros Hn Hb. unfold downloadOfficialVersion.
  rewrite run_bind, run_invoke_and_log, Hb, run_report_nullish by exact Hn.
  reflexivity.
Qed.

(** ** Rejections with any other value *)

(** Whatever else the backend rejects with, the [catch] block emits exactly
    one of a notification and an exception-log entry, also when rendering
    the log line raises. *)
Lemma report_emits_exactly_one (method : string) (e : value) (w : world) :
  is_nullish e = false ->
  exists emitted : list event,
    events (snd (run (report method e) w)) = (events w ++ emitted)%list /\
    backend_state (snd (run (report method e) w)) = backend_state w /\
    count is_notification emitted + count is_exception_log emitted = 1.
Proof.
  intros Hn. unfold report.
  rewrite run_bind, run_name_and_message by exact Hn. cbv beta iota.
  destruct (structured e) eqn:Hs.
  - unfold structured in Hs.
    destruct (Get e "name") as [x | name] eqn:Gname; [discriminate |].
    destruct (Get e "message") as [x | message] eqn:Gmessage;
      [rewrite andb_false_r in Hs; discriminate |].
    unfold makeToast, errorLog.
    repeat (rewrite ?run_bind, ?run_completion, ?run_emit; cbv beta iota).
    destruct (ToString Number_toString name) as [x | name_text].
    + exists [MakeToast message "error"]. auto.
    + repeat (rewrite ?run_bind, ?run_completion, ?run_emit; cbv beta iota).
      destruct (ToString Number_toString message) as [x | message_text].
      * exists [MakeToast message "error"]. auto.
      * rewrite run_emit. cbn [snd events backend_state].
        rewrite <- app_assoc. eexists. split; [reflexivity | auto].
  - destruct (String.eqb (typeof e) "string") eqn:Ht.
    + destruct e; try discriminate Ht.
      unfold makeToast, errorLog.
      repeat (rewrite ?run_bind, ?run_completion, ?run_emit; cbv beta iota).
      cbn [ToString]. cbv beta iota. rewrite run_emit.
      cbn [snd events backend_state]. rewrite <- app_assoc.
      eexists. split; [reflexivity | auto].
    + unfold exceptionLog. rewrite run_emit.
      eexists. split; [reflexivity | auto].
Qed.

(** The [catch] block never reads the events recorded before it: run after
    any history, it appends what it appends to an empty one. *)
Lemma run_report_frame (method : string) (e : value) (b : B)
  (history : list event) :
  run (report method e) (mkWorld b history) =
  (fst (run (report method e) (mkWorld b [])),
   mkWorld b (history ++ events (snd (run (report method e) (mkWorld b []))))).
Proof.
  destruct (is_nullish e) eqn:Hn.
  - rewrite !run_report_nullish by exact Hn. cbn. now rewrite app_nil_r.
  - unfold report.
    rewrite !run_bind, !run_name_and_message by exact Hn. cbv beta iota.
    unfold makeToast, errorLog, exceptionLog.
    destruct (structured e); [| destruct (String.eqb (typeof e) "string")];
      repeat (rewrite ?run_bind, ?run_completion, ?run_emit; cbv beta iota);
      repeat match goal with
             | |- context [match ?r with inl _ => _ | inr _ => _ end] =>
                 destruct r;
                 repeat (rewrite ?run_bind, ?run_completion, ?run_emit;
                         cbv beta iota)
             end;
      cbn [fst snd events backend_state app];
      rewrite <- ?app_assoc, ?app_nil_r; reflexivity.
Qed.

(** When [invoke_and_log] returns after a rejection, what it returns is the
    fallback producer's result. *)
Lemma invoke_and_log_rejected_returns (method : string)
  (handle : value -> value) (args : option InvokeArgs) (w w' : world)
  (e v : value) :
  fst (backend method args (backend_state w)) = Rejected e ->
  run (invoke_and_log method handle args) w = (inr v, w') ->
  v = handle e.
Proof.
  intros Hb. rewrite run_invoke_and_log.
  destruct (backend method args (backend_state w)) as [o b]. cbn in Hb. subst o.
  destruct (run (report method e) (mkWorld b (events w))) as [[x | u] w''];
    congruence.
Qed.

(** A rejection with a value that is neither [null] nor [undefined],
    neither structured nor a string, is logged on the exception channel
    only, with the value itself, and the fallback is returned. *)
Lemma invoke_and_log_rejected_opaque (method : string)
  (handle : value -> value) (args : option InvokeArgs) (w : world)
  (e : value) (b : B) :
  is_nullish e = false ->
  structured e = false ->
  String.eqb (typeof e) "string" = false ->
  backend method args (backend_state w) = (Rejected e, b) ->
  run (invoke_and_log method handle args) w =
  (inr (handle e),
   mkWorld b (events w ++ [ExceptionLog ("Error invoking " ++ method) e])).
Proof.
  intros Hn Hs Ht Hb.
  rewrite run_invoke_and_log, Hb, run_report_opaque by assumption.
  reflexivity.
Qed.

(** [downloadOfficialVersion] reports success for every resolution other
    than [false] and records nothing. *)
Lemma downloadOfficialVersion_resolved (version url : string) (w : world)
  (v : value) (b : B) :
  backend "download_version"
    (Some [("version", Str version); ("versionFolder", Str "official");
           ("url", Str url)]) (backend_state w) =
  (Resolved v, b) ->
  run (downloadOfficialVersion version url) w =
  (inr (strict_not_false v), mkWorld b (events w)).
Proof.
  intros Hb. unfold downloadOfficialVersion.
  rewrite run_bind, run_invoke_and_log, Hb. apply run_ret.
Qed.

Lemma strict_not_false_spec (v : value) :
  strict_not_false v = true <-> v <> Bool false.
Proof.
  destruct v as [| | [|] | | | |]; cbn; split; congruence.
Qed.

(** [downloadOfficialVersion] returns [false] whenever it returns after a
    rejection. *)
Lemma downloadOfficialVersion_rejected_returns (version url : string)
  (w w' : world) (e : value) (r : bool) :
  fst (backend "download_version"
         (Some [("version", Str version); ("versionFolder", Str "official");
                ("url", Str url)]) (backend_state w)) = Rejected e ->
  run (downloadOfficialVersion version url) w = (inr r, w') ->
  r = false.
Proof.
  intros Hb. unfold downloadOfficialVersion. rewrite run_bind.
  destruct (run (invoke_and_log _ _ _) w) as [[x | success] w''] eqn:Hrun;
    [discriminate |].
  apply (invoke_and_log_rejected_returns _ _ _ _ _ _ _ Hb) in Hrun.
  subst success. rewrite run_ret. cbn [strict_not_false]. congruence.
Qed.

(** C10: against a backend that rejects with [null] or [undefined], none
    of the seven operations returns its fallback value: each completes
    abruptly with a TypeError. *)
Theorem operations_rejected_nullish (e : value) (w : world)
  (folder : VersionFolders) (version url versionFolder : string) :
  is_nullish e = true ->
  (forall method args, fst (backend method args (backend_state w)) = Rejected e) ->
  fst (run (listDownloadedVersions folder) w) = inl TypeError /\
  fst (run (downloadOfficialVersion version url) w) = inl TypeError /\
  fst (run (removeVersion version versionFolder) w) = inl TypeError /\
  fst (run (openVersionFolder folder) w) = inl TypeError /\
  fst (run getActiveVersion w) = inl TypeError /\
  fst (run getActiveVersionFolder w) = inl TypeError /\
  fst (run ensureActiveVersionStillExists w) = inl TypeError.
Proof.
  intros Hn Hb.
  assert (Hraise : forall method handle args,
             run (invoke_and_log method handle args) w =
             (inl TypeError,
              mkWorld (snd (backend method args (backend_state w))) (events w))).
  { intros method handle args. rewrite run_invoke_and_log.
    specialize (Hb method args).
    destruct (backend method args (backend_state w)) as [o b]. cbn in Hb.
    subst o. rewrite run_report_nullish by exact Hn. reflexivity. }
  unfold listDownloadedVersions, downloadOfficialVersion, removeVersion,
    openVersionFolder, getActiveVersion, getActiveVersionFolder,
    ensureActiveVersionStillExists.
  rewrite !run_bind, !Hraise. cbn [fst]. repeat split.
Qed.

(** ** What a rejection leaves behind *)

(** The [catch] block on a value with a truthy [name] and [message]: the
    notification comes first, the log line only if both render. *)
Lemma run_report_truthy_fields (method : string) (e name message : value)
  (w : world) :
  Get e "name" = inr name ->
  Get e "message" = inr message ->
  ToBoolean name = true ->
  ToBoolean message = true ->
  run (report method e) w =
  match ToString Number_toString name, ToString Number_toString message with
  | inr name_text, inr message_text =>
      (inr tt,
       mkWorld (backend_state w)
         (events w ++
          [MakeToast message "error";
           ErrorLog ("Error invoking " ++ method ++ ": (" ++ name_text ++ ") "
                     ++ message_text)]))
  | _, _ =>
      (inl TypeError,
       mkWorld (backend_state w) (events w ++ [MakeToast message "error"]))
  end.
Proof.
  intros Gname Gmessage Tname Tmessage.
  assert (Hn : is_nullish e = false) by (destruct e; try reflexivity; discriminate).
  unfold report. rewrite run_bind, run_name_and_message by exact Hn.
  unfold structured. rewrite Gname, Gmessage, Tname, Tmessage.
  cbn [andb]. unfold makeToast, errorLog.
  repeat (rewrite ?run_bind, ?run_completion, ?run_emit; cbv beta iota).
  destruct (ToString Number_toString name) as [[] | name_text];
    [destruct (ToString Number_toString message); reflexivity |].
  repeat (rewrite ?run_bind, ?run_completion, ?run_emit; cbv beta iota).
  destruct (ToString Number_toString message) as [[] | message_text];
    [reflexivity |].
  rewrite run_emit. cbn [backend_state events]. rewrite <- app_assoc.
  reflexivity.
Qed.

Lemma structured_fields (e : value) :
  structured e = true ->
  exists name message,
    Get e "name" = inr name /\ Get e "message" = inr message /\
    ToBoolean name = true /\ ToBoolean message = true.
Proof.
  unfold structured. intros Hs.
  destruct (Get e "name") as [x | name]; [discriminate |].
  destruct (Get e "message") as [x | message];
    [rewrite andb_false_r in Hs; discriminate |].
  apply andb_true_iff in Hs. exists name, message. tauto.
Qed.

(** What [report] does on every failure value, in one statement: whether
    it raises, what it leaves of the world, and how much it records. *)
Lemma report_summary (method : string) (e : value) (w : world) :
  exists emitted : list event,
    run (report method e) w =
    (if report_raises e then inl TypeError else inr tt,
     mkWorld (backend_state w) (events w ++ emitted)) /\
    List.length emitted <= 2 /\
    count is_notification emitted + count is_exception_log emitted =
    (if is_nullish e then 0 else 1).
Proof.
  unfold report_raises.
  destruct (is_nullish e) eqn:Hn; cbn [orb].
  - exists []. rewrite run_report_nullish by exact Hn.
    rewrite app_nil_r. destruct w. cbn. auto.
  - destruct (structured e) eqn:Hs; cbn [andb].
    + destruct (structured_fields e Hs)
        as (name & message & Gname & Gmessage & Tname & Tmessage).
      rewrite (run_report_truthy_fields method e name message w) by assumption.
      rewrite Gname, Gmessage. unfold renders.
      destruct (ToString Number_toString name) as [[] | name_text];
        destruct (ToString Number_toString message) as [[] | message_text];
        cbn [andb negb]; eexists; (split; [reflexivity | cbn; auto]).
    + destruct (String.eqb (typeof e) "string") eqn:Ht.
      * destruct e; try discriminate Ht. rewrite run_report_string.
        eexists; (split; [reflexivity | cbn; auto]).
      * rewrite run_report_opaque by assumption.
        eexists; (split; [reflexivity | cbn; auto]).
Qed.

(** [invoke_and_log] completes abruptly exactly when the backend call
    rejects with a value on which the [catch] block raises; a resolution,
    and every other rejection, returns. *)
Theorem invoke_and_log_raises_iff (method : string) (handle : value -> value)
  (args : option InvokeArgs) (w : world) :
  fst (run (invoke_and_log method handle args) w) = inl TypeError <->
  exists e, fst (backend method args (backend_state w)) = Rejected e /\
            report_raises e = true.
Proof.
  rewrite run_invoke_and_log.
  destruct (backend method args (backend_state w)) as [[v | e] b]; cbn [fst].
  - split; [discriminate | intros (e & He & _); discriminate].
  - destruct (report_summary method e (mkWorld b (events w)))
      as (emitted & -> & _).
    destruct (report_raises e) eqn:Hr; cbn [fst]; split.
    + intros _. exists e. split; [reflexivity | exact Hr].
    + reflexivity.
    + discriminate.
    + intros (e' & He & Hr'). injection He as <-. congruence.
Qed.

(** Whatever the backend does, [invoke_and_log] keeps the events recorded
    before the call, in their order, and adds at most two. *)
Theorem invoke_and_log_appends (method : string) (handle : value -> value)
  (args : option InvokeArgs) (w : world) :
  exists emitted : list event,
    events (snd (run (invoke_and_log method handle args) w)) =
    (events w ++ emitted)%list /\
    List.length emitted <= 2.
Proof.
  rewrite run_invoke_and_log.
  destruct (backend method args (backend_state w)) as [[v | e] b].
  - exists []. cbn. rewrite app_nil_r. auto.
  - destruct (report_summary method e (mkWorld b (events w)))
      as (emitted & -> & Hlen & _).
    exists emitted. destruct (report_raises e); cbn; auto.
Qed.

(** One backend round trip per call, whatever the outcome: after
    [invoke_and_log] the backend is in the state its single call left it
    in; a failure is not retried. *)
Theorem invoke_and_log_single_round_trip (method : string)
  (handle : value -> value) (args : option InvokeArgs) (w : world) :
  backend_state (snd (run (invoke_and_log method handle args) w)) =
  snd (backend method args (backend_state w)).
Proof.
  rewrite run_invoke_and_log.
  destruct (backend method args (backend_state w)) as [[v | e] b];
    [reflexivity |].
  destruct (report_summary method e (mkWorld b (events w)))
    as (emitted & -> & _).
  destruct (report_raises e); reflexivity.
Qed.

(** On a rejection with any value but [null] and [undefined],
    [invoke_and_log] emits exactly one of a notification and an
    exception-log entry, also when it then raises while rendering the log
    line. *)
Theorem invoke_and_log_rejected_emits_one (method : string)
  (handle : value -> value) (args : option InvokeArgs) (w : world)
  (e : value) :
  is_nullish e = false ->
  fst (backend method args (backend_state w)) = Rejected e ->
  exists emitted : list event,
    events (snd (run (invoke_and_log method handle args) w)) =
    (events w ++ emitted)%list /\
    count is_notification emitted + count is_exception_log emitted = 1.
Proof.
  intros Hn Hb. rewrite run_invoke_and_log.
  destruct (backend method args (backend_state w)) as [o b]. cbn in Hb. subst o.
  destruct (report_summary method e (mkWorld b (events w)))
    as (emitted & -> & _ & Hcount).
  rewrite Hn in Hcount. exists emitted.
  destruct (report_raises e); cbn; auto.
Qed.

(** A rejection with an object whose [name] and [message] are truthy and
    render, strings or not: the notification carries the [message] value
    as it is, the log line the renderings of both. *)
Theorem invoke_and_log_rejected_truthy_fields (method : string)
  (handle : value -> value) (args : option InvokeArgs) (w : world)
  (fields : list (string * value)) (name message : value)
  (name_text message_text : string) (b : B) :
  own_property fields "name" = Some name ->
  own_property fields "message" = Some message ->
  ToBoolean name = true ->
  ToBoolean message = true ->
  ToString Number_toString name = inr name_text ->
  ToString Number_toString message = inr message_text ->
  backend method args (backend_state w) = (Rejected (Object fields), b) ->
  run (invoke_and_log method handle args) w =
  (inr (handle (Object fields)),
   mkWorld b
     (events w ++
      [MakeToast message "error";
       ErrorLog ("Error invoking " ++ method ++ ": (" ++ name_text ++ ") "
                 ++ message_text)])).
Proof.
  intros Hname Hmessage Tname Tmessage Sname Smessage Hb.
  rewrite run_invoke_and_log, Hb.
  rewrite (run_report_structured method fields name message
             name_text message_text) by assumption.
  reflexivity.
Qed.

(** A rejection with an object whose [name] and [message] are truthy but
    of which one cannot be rendered: the notification is shown, then
    [invoke_and_log] raises; no log line is written and the fallback
    producer is not reached. *)
Theorem invoke_and_log_rejected_unrenderable (method : string)
  (handle : value -> value) (args : option InvokeArgs) (w : world)
  (fields : list (string * value)) (name message : value) (b : B) :
  own_property fields "name" = Some name ->
  own_property fields "message" = Some message ->
  ToBoolean name = true ->
  ToBoolean message = true ->
  renders name && renders message = false ->
  backend method args (backend_state w) = (Rejected (Object fields), b) ->
  run (invoke_and_log method handle args) w =
  (inl TypeError, mkWorld b (events w ++ [MakeToast message "error"])).
Proof.
  intros Hname Hmessage Tname Tmessage Hr Hb.
  rewrite run_invoke_and_log, Hb.
  rewrite (run_report_truthy_fields method (Object fields) name message);
    try assumption; try (cbn [Get]; rewrite ?Hname, ?Hmessage; reflexivity).
  unfold renders in Hr.
  destruct (ToString Number_toString name) as [[] | name_text];
    destruct (ToString Number_toString message) as [[] | message_text];
    try reflexivity; discriminate.
Qed.

(** ** The operations on resolutions and on rejections *)

Lemma run_invoke_and_log_resolved (method : string) (handle : value -> value)
  (args : option InvokeArgs) (w : world) (v : value) :
  fst (backend method args (backend_state w)) = Resolved v ->
  run (invoke_and_log method handle args) w =
  (inr v, mkWorld (snd (backend method args (backend_state w))) (events w)).
Proof.
  intros Hb. rewrite run_invoke_and_log.
  destruct (backend method args (backend_state w)) as [o b]. cbn in Hb.
  subst o. reflexivity.
Qed.

Lemma run_invoke_and_log_rejected (method : string) (handle : value -> value)
  (args : option InvokeArgs) (w : world) (e : value) :
  fst (backend method args (backend_state w)) = Rejected e ->
  exists emitted : list event,
    run (invoke_and_log method handle args) w =
    (if report_raises e then inl TypeError else inr (handle e),
     mkWorld (snd (backend method args (backend_state w)))
       (events w ++ emitted)).
Proof.
  intros Hb. rewrite run_invoke_and_log.
  destruct (backend method args (backend_state w)) as [o b]. cbn in Hb.
  subst o.
  destruct (report_summary method e (mkWorld b (events w)))
    as (emitted & -> & _).
  exists emitted. destruct (report_raises e); reflexivity.
Qed.

Lemma run_invoke_and_log_plain (method : string) (handle : value -> value)
  (args : option InvokeArgs) (w : world) (s : string) :
  fst (backend method args (backend_state w)) = Rejected (Str s) ->
  run (invoke_and_log method handle args) w =
  (inr (handle (Str s)),
   mkWorld (snd (backend method args (backend_state w)))
     (events w ++ plain_failure_events method s)).
Proof.
  intros Hb. rewrite run_invoke_and_log.
  destruct (backend method args (backend_state w)) as [o b]. cbn in Hb.
  subst o. rewrite run_report_string. reflexivity.
Qed.

(** [downloadOfficialVersion], when it returns, returns [true] exactly when
    the [download_version] call resolved with a value other than [false];
    a resolution with [false] and a rejection both give [false]. *)
Theorem downloadOfficialVersion_true_iff (version url : string)
  (w w' : world) (r : bool) :
  run (downloadOfficialVersion version url) w = (inr r, w') ->
  (r = true <->
   exists v,
     fst (backend "download_version"
            (Some [("version", Str version); ("versionFolder", Str "official");
                   ("url", Str url)]) (backend_state w)) = Resolved v /\
     v <> Bool false).
Proof.
  unfold downloadOfficialVersion. rewrite run_bind.
  destruct (backend "download_version" _ (backend_state w)) as [o b] eqn:Hb.
  destruct o as [v | e]; cbn [fst].
  - rewrite (run_invoke_and_log_resolved _ _ _ _ v) by (rewrite Hb; reflexivity).
    rewrite run_ret. intros [= <- _]. rewrite strict_not_false_spec.
    split; [intros Hv; exists v; auto | intros (v' & [= <-] & Hv); exact Hv].
  - match goal with
    | |- context [run (invoke_and_log ?m ?h ?a) w] =>
        destruct (run_invoke_and_log_rejected m h a w e) as (emitted & ->);
          [rewrite Hb; reflexivity |]
    end.
    destruct (report_raises e); [discriminate |].
    rewrite run_ret. cbn [strict_not_false]. intros [= <- _].
    split; [discriminate | intros (v & Hv & _); discriminate].
Qed.

(** [removeVersion] calls [remove_version] with [{version, versionFolder}]
    and, when it returns, returns [true] exactly when that call resolved
    with a value other than [false]. *)
Theorem removeVersion_true_iff (version versionFolder : string)
  (w w' : world) (r : bool) :
  run (removeVersion version versionFolder) w = (inr r, w') ->
  (r = true <->
   exists v,
     fst (backend "remove_version"
            (Some [("version", Str version);
                   ("versionFolder", Str versionFolder)]) (backend_state w)) =
     Resolved v /\
     v <> Bool false).
Proof.
  unfold removeVersion. rewrite run_bind.
  destruct (backend "remove_version" _ (backend_state w)) as [o b] eqn:Hb.
  destruct o as [v | e]; cbn [fst].
  - rewrite (run_invoke_and_log_resolved _ _ _ _ v) by (rewrite Hb; reflexivity).
    rewrite run_ret. intros [= <- _]. rewrite strict_not_false_spec.
    split; [intros Hv; exists v; auto | intros (v' & [= <-] & Hv); exact Hv].
  - match goal with
    | |- context [run (invoke_and_log ?m ?h ?a) w] =>
        destruct (run_invoke_and_log_rejected m h a w e) as (emitted & ->);
          [rewrite Hb; reflexivity |]
    end.
    destruct (report_raises e); [discriminate |].
    rewrite run_ret. cbn [strict_not_false]. intros [= <- _].
    split; [discriminate | intros (v & Hv & _); discriminate].
Qed.

(** The five operations without a [!== false] mapping hand the resolution
    of their backend call to the caller as it is, whatever its type, and
    record nothing: [ensureActiveVersionStillExists] returns a resolved
    [null] as [null], where [removeVersion] would report [true]. *)
Theorem passthrough_operations_resolved (v : value) (w : world)
  (folder : VersionFolders) :
  (forall method args, fst (backend method args (backend_state w)) = Resolved v) ->
  returns_quietly (listDownloadedVersions folder) w v /\
  returns_quietly (openVersionFolder folder) w v /\
  returns_quietly getActiveVersion w v /\
  returns_quietly getActiveVersionFolder w v /\
  returns_quietly ensureActiveVersionStillExists w v.
Proof.
  intros Hb.
  unfold returns_quietly, listDownloadedVersions, openVersionFolder,
    getActiveVersion, getActiveVersionFolder, ensureActiveVersionStillExists.
  rewrite !(run_invoke_and_log_resolved _ _ _ _ v) by apply Hb.
  cbn [fst snd events]. repeat split.
Qed.

(** When every backend call rejects with a value [e] on which the [catch]
    block does not raise, each operation returns its own constant fallback,
    whatever [e] is: the empty sequence, [false], [undefined] or [null]. *)
Theorem operations_fallback (e : value) (w : world)
  (folder : VersionFolders) (version url versionFolder : string) :
  report_raises e = false ->
  (forall method args, fst (backend method args (backend_state w)) = Rejected e) ->
  fst (run (listDownloadedVersions folder) w) = inr (Array []) /\
  fst (run (downloadOfficialVersion version url) w) = inr false /\
  fst (run (removeVersion version versionFolder) w) = inr false /\
  fst (run (openVersionFolder folder) w) = inr Undefined /\
  fst (run getActiveVersion w) = inr Null /\
  fst (run getActiveVersionFolder w) = inr Null /\
  fst (run ensureActiveVersionStillExists w) = inr (Bool false).
Proof.
  intros Hr Hb.
  assert (Hreturn : forall method handle args,
             exists w', run (invoke_and_log method handle args) w =
                        (inr (handle e), w')).
  { intros method handle args.
    destruct (run_invoke_and_log_rejected method handle args w e (Hb _ _))
      as (emitted & ->).
    rewrite Hr. eexists. reflexivity. }
  unfold listDownloadedVersions, downloadOfficialVersion, removeVersion,
    openVersionFolder, getActiveVersion, getActiveVersionFolder,
    ensureActiveVersionStillExists.
  rewrite !run_bind.
  repeat split;
    match goal with
    | |- context [run (invoke_and_log ?m ?h ?a) w] =>
        destruct (Hreturn m h a) as (w' & ->)
    end; reflexivity.
Qed.

(** When every backend call rejects with the plain string [s], each
    operation shows [s] once and writes one log line that names the backend
    method of that operation. *)
Theorem operations_log_their_method (s : string) (w : world)
  (folder : VersionFolders) (version url versionFolder : string) :
  (forall method args,
      fst (backend method args (backend_state w)) = Rejected (Str s)) ->
  events (snd (run (listDownloadedVersions folder) w)) =
    (events w ++ plain_failure_events "list_downloaded_versions" s)%list /\
  events (snd (run (downloadOfficialVersion version url) w)) =
    (events w ++ plain_failure_events "download_version" s)%list /\
  events (snd (run (removeVersion version versionFolder) w)) =
    (events w ++ plain_failure_events "remove_version" s)%list /\
  events (snd (run (openVersionFolder folder) w)) =
    (events w ++ plain_failure_events "open_version_folder" s)%list /\
  events (snd (run getActiveVersion w)) =
    (events w ++ plain_failure_events "get_active_tooling_version" s)%list /\
  events (snd (run getActiveVersionFolder w)) =
    (events w ++
     plain_failure_events "get_active_tooling_version_folder" s)%list /\
  events (snd (run ensureActiveVersionStillExists w)) =
    (events w ++
     plain_failure_events "ensure_active_version_still_exists" s)%list.
Proof.
  intros Hb.
  unfold listDownloadedVersions, downloadOfficialVersion, removeVersion,
    openVersionFolder, getActiveVersion, getActiveVersionFolder,
    ensureActiveVersionStillExists.
  rewrite !run_bind, !(run_invoke_and_log_plain _ _ _ _ s) by apply Hb.
  rewrite !run_ret. cbn [fst snd events]. repeat split.
Qed.

(** Failures are not merged: two calls in a row that both reject with the
    string [s] show two notifications and write two log lines, in the order
    of the calls, after the events that were there. *)
Theorem invoke_and_log_twice_rejected (method : string)
  (handle : value -> value) (args : option InvokeArgs) (w : world)
  (s : string) (b1 b2 : B) :
  backend method args (backend_state w) = (Rejected (Str s), b1) ->
  backend method args b1 = (Rejected (Str s), b2) ->
  run (first <- invoke_and_log method handle args ;;
       second <- invoke_and_log method handle args ;;
       ret (first, second)) w =
  (inr (handle (Str s), handle (Str s)),
   mkWorld b2
     (events w ++ plain_failure_events method s
               ++ plain_failure_events method s)).
Proof.
  intros H1 H2.
  rewrite run_bind, run_invoke_and_log, H1, run_report_string.
  rewrite run_bind, run_invoke_and_log. cbn [backend_state events].
  rewrite H2, run_report_string, run_ret. cbn [backend_state events].
  rewrite <- app_assoc. reflexivity.
Qed.

End Invoker.

Arguments mkWorld {B} _ _.
Arguments backend_state {B} _.
Arguments events {B} _.
Arguments run {B A} _ _.

(** ** The contract on concrete calls *)

(** [get_active_tooling_version] rejects with
    [{name: "IOError", message: "not found"}]. *)
Example getActiveVersion_io_error :
  run (getActiveVersion unit (settles_with (Rejected io_error))
         Number_toString_sample) (mkWorld tt []) =
  (inr Null,
   mkWorld tt
     [MakeToast (Str "not found") "error";
      ErrorLog "Error invoking get_active_tooling_version: (IOError) not found"]).
Proof. reflexivity. Qed.

(** [list_downloaded_versions] rejects with the opaque value [42]. *)
Example listDownloadedVersions_rejected_42 :
  run (listDownloadedVersions unit (settles_with (Rejected (Number 42%float)))
         Number_toString_sample official) (mkWorld tt []) =
  (inr (Array []),
   mkWorld tt
     [ExceptionLog "Error invoking list_downloaded_versions" (Number 42%float)]).
Proof. reflexivity. Qed.

(** [download_version] resolves with [true], with [false], and with the
    [null] of a command that has nothing to return. *)
Example downloadOfficialVersion_resolutions :
  run (downloadOfficialVersion unit (settles_with (Resolved (Bool true)))
         Number_toString_sample "v0.1.32" "https://example.org/v0.1.32.zip")
    (mkWorld tt []) = (inr true, mkWorld tt []) /\
  run (downloadOfficialVersion unit (settles_with (Resolved (Bool false)))
         Number_toString_sample "v0.1.32" "https://example.org/v0.1.32.zip")
    (mkWorld tt []) = (inr false, mkWorld tt []) /\
  run (downloadOfficialVersion unit (settles_with (Resolved Null))
         Number_toString_sample "v0.1.32" "https://example.org/v0.1.32.zip")
    (mkWorld tt []) = (inr true, mkWorld tt []).
Proof. repeat split. Qed.

(** C2 as first stated does not hold: the failure value
    [{name: "", message: "boom"}] has both string fields, yet no
    notification is shown and no error-log line is written; the value goes
    to the exception log. *)
Lemma structured_empty_name_counterexample :
  own_property [("name", Str ""); ("message", Str "boom")] "name" = Some (Str "") /\
  own_property [("name", Str ""); ("message", Str "boom")] "message" = Some (Str "boom") /\
  run (invoke_and_log unit (settles_with (Rejected empty_name_failure))
         Number_toString_sample "remove_version" (fun _ => Bool false) None)
    (mkWorld tt []) =
  (inr (Bool false),
   mkWorld tt [ExceptionLog "Error invoking remove_version" empty_name_failure]) /\
  run (invoke_and_log unit (settles_with (Rejected empty_name_failure))
         Number_toString_sample "remove_version" (fun _ => Bool false) None)
    (mkWorld tt []) <>
  (inr (Bool false),
   mkWorld tt
     [MakeToast (Str "boom") "error";
      ErrorLog "Error invoking remove_version: () boom"]).
Proof.
  repeat split. cbn. discriminate.
Qed.

(** ** Instances of the theorems *)

Lemma invoke_and_log_resolved_witness :
  run (invoke_and_log unit (settles_with (Resolved (Str "v0.1.32")))
         Number_toString_sample "get_active_tooling_version" (fun _ => Null) None)
    (mkWorld tt []) =
  (inr (Str "v0.1.32"), mkWorld tt []).
Proof.
  apply (invoke_and_log_resolved unit (settles_with (Resolved (Str "v0.1.32")))
           Number_toString_sample "get_active_tooling_version" (fun _ => Null)
           None (mkWorld tt []) (Str "v0.1.32") tt).
  reflexivity.
Defined.

Lemma invoke_and_log_rejected_string_witness :
  run (invoke_and_log unit (settles_with (Rejected (Str "disk full")))
         Number_toString_sample "download_version" (fun _ => Bool false) None)
    (mkWorld tt []) =
  (inr (Bool false),
   mkWorld tt
     [MakeToast (Str "disk full") "error";
      ErrorLog "Error invoking download_version: disk full"]).
Proof.
  apply (invoke_and_log_rejected_string unit
           (settles_with (Rejected (Str "disk full"))) Number_toString_sample
           "download_version" (fun _ => Bool false) None (mkWorld tt [])
           "disk full" tt).
  reflexivity.
Defined.

Lemma invoke_and_log_rejected_structured_witness :
  run (invoke_and_log unit (settles_with (Rejected io_error))
         Number_toString_sample "get_active_tooling_version" (fun _ => Null) None)
    (mkWorld tt []) =
  (inr Null,
   mkWorld tt
     [MakeToast (Str "not found") "error";
      ErrorLog "Error invoking get_active_tooling_version: (IOError) not found"]).
Proof.
  apply (invoke_and_log_rejected_structured unit
           (settles_with (Rejected io_error)) Number_toString_sample
           "get_active_tooling_version" (fun _ => Null) None (mkWorld tt [])
           [("name", Str "IOError"); ("message", Str "not found")]
           "IOError" "not found" tt);
    solve [reflexivity | discriminate].
Defined.

Lemma invoke_and_log_rejected_falsy_field_witness :
  run (invoke_and_log unit (settles_with (Rejected zero_message_failure))
         Number_toString_sample "open_version_folder" (fun _ => Undefined) None)
    (mkWorld tt []) =
  (inr Undefined,
   mkWorld tt
     [ExceptionLog "Error invoking open_version_folder" zero_message_failure]).
Proof.
  apply (invoke_and_log_rejected_falsy_field unit
           (settles_with (Rejected zero_message_failure)) Number_toString_sample
           "open_version_folder" (fun _ => Undefined) None (mkWorld tt [])
           [("name", Str "E"); ("message", Number 0%float)]
           (Str "E") (Number 0%float) tt);
    reflexivity.
Defined.

Lemma invoke_and_log_twice_witness :
  run (first <- invoke_and_log unit (settles_with (Resolved (Bool true)))
                  Number_toString_sample "ensure_active_version_still_exists"
                  (fun _ => Bool false) None ;;
       second <- invoke_and_log unit (settles_with (Resolved (Bool true)))
                   Number_toString_sample "ensure_active_version_still_exists"
                   (fun _ => Bool false) None ;;
       ret (first, second)) (mkWorld tt []) =
  (inr (Bool true, Bool true), mkWorld tt []).
Proof.
  apply (invoke_and_log_twice unit (settles_with (Resolved (Bool true)))
           Number_toString_sample "ensure_active_version_still_exists"
           (fun _ => Bool false) None (mkWorld tt []) (Bool true) tt tt);
    reflexivity.
Defined.

Lemma invoke_and_log_rejected_nullish_witness :
  run (invoke_and_log unit (settles_with (Rejected Null))
         Number_toString_sample "get_active_tooling_version" (fun _ => Null) None)
    (mkWorld tt []) =
  (inl TypeError, mkWorld tt []).
Proof.
  apply (invoke_and_log_rejected_nullish unit (settles_with (Rejected Null))
           Number_toString_sample "get_active_tooling_version" (fun _ => Null)
           None (mkWorld tt []) Null tt);
    reflexivity.
Defined.

Lemma nullish_rejection_emits_neither_witness :
  fst (run (invoke_and_log unit (settles_with (Rejected Undefined))
              Number_toString_sample "remove_version" (fun _ => Bool false) None)
         (mkWorld tt [])) = inl TypeError /\
  count is_notification
    (events (snd (run (invoke_and_log unit (settles_with (Rejected Undefined))
                         Number_toString_sample "remove_version"
                         (fun _ => Bool false) None) (mkWorld tt [])))) =
  count is_notification [] /\
  count is_exception_log
    (events (snd (run (invoke_and_log unit (settles_with (Rejected Undefined))
                         Number_toString_sample "remove_version"
                         (fun _ => Bool false) None) (mkWorld tt [])))) =
  count is_exception_log [].
Proof.
  apply (nullish_rejection_emits_neither unit
           (settles_with (Rejected Undefined)) Number_toString_sample
           "remove_version" (fun _ => Bool false) None (mkWorld tt [])
           Undefined tt);
    reflexivity.
Defined.

Lemma listDownloadedVersions_rejected_null_witness :
  run (listDownloadedVersions unit (settles_with (Rejected Null))
         Number_toString_sample official) (mkWorld tt []) =
  (inl TypeError, mkWorld tt []).
Proof.
  apply (listDownloadedVersions_rejected_null unit
           (settles_with (Rejected Null)) Number_toString_sample official
           (mkWorld tt []) tt).
  reflexivity.
Defined.

Lemma downloadOfficialVersion_rejected_nullish_witness :
  run (downloadOfficialVersion unit (settles_with (Rejected Null))
         Number_toString_sample "v0.1.32" "https://example.org/v0.1.32.zip")
    (mkWorld tt []) =
  (inl TypeError, mkWorld tt []).
Proof.
  apply (downloadOfficialVersion_rejected_nullish unit
           (settles_with (Rejected Null)) Number_toString_sample
           "v0.1.32" "https://example.org/v0.1.32.zip" (mkWorld tt []) Null tt);
    reflexivity.
Defined.

Lemma operations_rejected_nullish_witness :
  fst (run (listDownloadedVersions unit (settles_with (Rejected Null))
              Number_toString_sample devel) (mkWorld tt [])) = inl TypeError /\
  fst (run (downloadOfficialVersion unit (settles_with (Rejected Null))
              Number_toString_sample "v1" "u") (mkWorld tt [])) = inl TypeError /\
  fst (run (removeVersion unit (settles_with (Rejected Null))
              Number_toString_sample "v1" "official") (mkWorld tt [])) = inl TypeError /\
  fst (run (openVersionFolder unit (settles_with (Rejected Null))
              Number_toString_sample devel) (mkWorld tt [])) = inl TypeError /\
  fst (run (getActiveVersion unit (settles_with (Rejected Null))
              Number_toString_sample) (mkWorld tt [])) = inl TypeError /\
  fst (run (getActiveVersionFolder unit (settles_with (Rejected Null))
              Number_toString_sample) (mkWorld tt [])) = inl TypeError /\
  fst (run (ensureActiveVersionStillExists unit (settles_with (Rejected Null))
              Number_toString_sample) (mkWorld tt [])) = inl TypeError.
Proof.
  apply (operations_rejected_nullish unit (settles_with (Rejected Null))
           Number_toString_sample Null (mkWorld tt []) devel "v1" "u" "official");
    reflexivity.
Defined.

(** ** The status handler *)

Lemma prefix_append (needle s : string) :
  String.prefix needle s = true <-> exists q, s = needle ++ q.
Proof.
  revert s. induction needle as [| c needle IH]; intros s.
  - destruct s; cbn; split; eauto.
  - destruct s as [| d s]; cbn.
    + split; [discriminate | intros (q & Hq); discriminate].
    + destruct (Ascii.ascii_dec c d) as [-> | Hcd].
      * rewrite IH. split; intros (q & Hq); exists q; congruence.
      * split; [discriminate | intros (q & Hq); congruence].
Qed.

Lemma string_includes_occurs (s needle : string) :
  MainProcess.string_includes s needle = true <->
  exists p q, s = p ++ needle ++ q.
Proof.
  induction s as [| c s IH]; cbn [MainProcess.string_includes];
    rewrite orb_true_iff, prefix_append.
  - split.
    + intros [(q & Hq) | Hf]; [exists "", q; exact Hq | discriminate].
    + intros (p & q & Hpq). left. destruct p; [exists q; exact Hpq |].
      discriminate.
  - rewrite IH. split.
    + intros [(q & Hq) | (p & q & Hpq)].
      * exists "", q. exact Hq.
      * exists (String c p), q. cbn. congruence.
    + intros (p & q & Hpq). destruct p as [| d p]; cbn in Hpq.
      * left. exists q. exact Hpq.
      * right. exists p, q. congruence.
Qed.

(** Once the main window exists, a status text is forwarded to it on the
    [status] channel first, and the build notification, titled with the
    whole text, follows exactly when [Compiled game successfully!] occurs
    somewhere in the text. *)
Theorem on_status_notifies_iff (s : string) :
  exists rest,
    MainProcess.on_status true (Str s) =
    (inr tt, MainProcess.Send "status" (Str s) :: rest) /\
    (rest = [MainProcess.ShowNotification (Str s) "Game ready to launch!"] <->
     exists p q, s = p ++ "Compiled game successfully!" ++ q) /\
    (rest = [] <->
     ~ exists p q, s = p ++ "Compiled game successfully!" ++ q).
Proof.
  unfold MainProcess.on_status, MainProcess.includes.
  pose proof (string_includes_occurs s "Compiled game successfully!") as Hocc.
  destruct (MainProcess.string_includes s "Compiled game successfully!");
    eexists; (split; [reflexivity |]); split; split; intros H.
  - apply Hocc. reflexivity.
  - reflexivity.
  - discriminate H.
  - exfalso. apply H, Hocc. reflexivity.
  - discriminate H.
  - apply Hocc in H. discriminate H.
  - intros H'. apply Hocc in H'. discriminate H'.
  - reflexivity.
Qed.

(** ** Instances of the further properties *)

Lemma invoke_and_log_rejected_opaque_witness :
  run (invoke_and_log unit (settles_with (Rejected (Bool true)))
         Number_toString_sample "remove_version" (fun _ => Bool false) None)
    (mkWorld tt []) =
  (inr (Bool false),
   mkWorld tt [ExceptionLog "Error invoking remove_version" (Bool true)]).
Proof.
  apply (invoke_and_log_rejected_opaque unit
           (settles_with (Rejected (Bool true))) Number_toString_sample
           "remove_version" (fun _ => Bool false) None (mkWorld tt [])
           (Bool true) tt);
    reflexivity.
Defined.

Lemma invoke_and_log_rejected_emits_one_witness :
  exists emitted : list event,
    events (snd (run (invoke_and_log unit
                        (settles_with (Rejected unrenderable_name_failure))
                        Number_toString_sample "remove_version"
                        (fun _ => Bool false) None) (mkWorld tt []))) =
    ([] ++ emitted)%list /\
    count is_notification emitted + count is_exception_log emitted = 1.
Proof.
  apply (invoke_and_log_rejected_emits_one unit
           (settles_with (Rejected unrenderable_name_failure))
           Number_toString_sample "remove_version" (fun _ => Bool false) None
           (mkWorld tt []) unrenderable_name_failure);
    reflexivity.
Defined.

Lemma invoke_and_log_rejected_truthy_fields_witness :
  run (invoke_and_log unit (settles_with (Rejected list_message_failure))
         Number_toString_sample "download_version" (fun _ => Bool false) None)
    (mkWorld tt []) =
  (inr (Bool false),
   mkWorld tt
     [MakeToast (Array [Str "disk"; Str "full"]) "error";
      ErrorLog "Error invoking download_version: (E) disk,full"]).
Proof.
  apply (invoke_and_log_rejected_truthy_fields unit
           (settles_with (Rejected list_message_failure))
           Number_toString_sample "download_version" (fun _ => Bool false)
           None (mkWorld tt [])
           [("name", Str "E"); ("message", Array [Str "disk"; Str "full"])]
           (Str "E") (Array [Str "disk"; Str "full"]) "E" "disk,full" tt);
    reflexivity.
Defined.

Lemma invoke_and_log_rejected_unrenderable_witness :
  run (invoke_and_log unit (settles_with (Rejected unrenderable_name_failure))
         Number_toString_sample "download_version" (fun _ => Bool false) None)
    (mkWorld tt []) =
  (inl TypeError, mkWorld tt [MakeToast (Str "boom") "error"]).
Proof.
  apply (invoke_and_log_rejected_unrenderable unit
           (settles_with (Rejected unrenderable_name_failure))
           Number_toString_sample "download_version" (fun _ => Bool false)
           None (mkWorld tt [])
           [("name", Object [("toString", Null)]); ("message", Str "boom")]
           (Object [("toString", Null)]) (Str "boom") tt);
    reflexivity.
Defined.

Lemma downloadOfficialVersion_true_iff_witness :
  true = true <->
  exists v,
    fst (settles_with (Resolved Null) "download_version"
           (Some [("version", Str "v0.1.32"); ("versionFolder", Str "official");
                  ("url", Str "https://example.org/v0.1.32.zip")]) tt) =
    Resolved v /\
    v <> Bool false.
Proof.
  apply (downloadOfficialVersion_true_iff unit (settles_with (Resolved Null))
           Number_toString_sample "v0.1.32" "https://example.org/v0.1.32.zip"
           (mkWorld tt []) (mkWorld tt []) true).
  reflexivity.
Defined.

Lemma removeVersion_true_iff_witness :
  false = true <->
  exists v,
    fst (settles_with (Rejected (Str "in use")) "remove_version"
           (Some [("version", Str "v0.1.32");
                  ("versionFolder", Str "official")]) tt) =
    Resolved v /\
    v <> Bool false.
Proof.
  apply (removeVersion_true_iff unit (settles_with (Rejected (Str "in use")))
           Number_toString_sample "v0.1.32" "official" (mkWorld tt [])
           (mkWorld tt (plain_failure_events "remove_version" "in use")) false).
  reflexivity.
Defined.

Lemma passthrough_operations_resolved_witness :
  returns_quietly unit
    (listDownloadedVersions unit (settles_with (Resolved Null))
       Number_toString_sample official) (mkWorld tt []) Null /\
  returns_quietly unit
    (openVersionFolder unit (settles_with (Resolved Null))
       Number_toString_sample official) (mkWorld tt []) Null /\
  returns_quietly unit
    (getActiveVersion unit (settles_with (Resolved Null))
       Number_toString_sample) (mkWorld tt []) Null /\
  returns_quietly unit
    (getActiveVersionFolder unit (settles_with (Resolved Null))
       Number_toString_sample) (mkWorld tt []) Null /\
  returns_quietly unit
    (ensureActiveVersionStillExists unit (settles_with (Resolved Null))
       Number_toString_sample) (mkWorld tt []) Null.
Proof.
  apply (passthrough_operations_resolved unit (settles_with (Resolved Null))
           Number_toString_sample Null (mkWorld tt []) official).
  reflexivity.
Defined.

Lemma operations_fallback_witness :
  fst (run (listDownloadedVersions unit
              (settles_with (Rejected (Number 42%float)))
              Number_toString_sample devel) (mkWorld tt [])) = inr (Array []) /\
  fst (run (downloadOfficialVersion unit
              (settles_with (Rejected (Number 42%float)))
              Number_toString_sample "v1" "u") (mkWorld tt [])) = inr false /\
  fst (run (removeVersion unit (settles_with (Rejected (Number 42%float)))
              Number_toString_sample "v1" "official") (mkWorld tt [])) =
  inr false /\
  fst (run (openVersionFolder unit (settles_with (Rejected (Number 42%float)))
              Number_toString_sample devel) (mkWorld tt [])) = inr Undefined /\
  fst (run (getActiveVersion unit (settles_with (Rejected (Number 42%float)))
              Number_toString_sample) (mkWorld tt [])) = inr Null /\
  fst (run (getActiveVersionFolder unit
              (settles_with (Rejected (Number 42%float)))
              Number_toString_sample) (mkWorld tt [])) = inr Null /\
  fst (run (ensureActiveVersionStillExists unit
              (settles_with (Rejected (Number 42%float)))
              Number_toString_sample) (mkWorld tt [])) = inr (Bool false).
Proof.
  apply (operations_fallback unit (settles_with (Rejected (Number 42%float)))
           Number_toString_sample (Number 42%float) (mkWorld tt []) devel
           "v1" "u" "official");
    reflexivity.
Defined.

Lemma operations_log_their_method_witness :
  events (snd (run (getActiveVersion unit
                      (settles_with (Rejected (Str "offline")))
                      Number_toString_sample) (mkWorld tt []))) =
  [MakeToast (Str "offline") "error";
   ErrorLog "Error invoking get_active_tooling_version: offline"].
Proof.
  apply (operations_log_their_method unit
           (settles_with (Rejected (Str "offline"))) Number_toString_sample
           "offline" (mkWorld tt []) devel "v1" "u" "official").
  reflexivity.
Defined.

Lemma invoke_and_log_twice_rejected_witness :
  run (first <- invoke_and_log unit (settles_with (Rejected (Str "offline")))
                  Number_toString_sample "get_active_tooling_version"
                  (fun _ => Null) None ;;
       second <- invoke_and_log unit (settles_with (Rejected (Str "offline")))
                   Number_toString_sample "get_active_tooling_version"
                   (fun _ => Null) None ;;
       ret (first, second)) (mkWorld tt []) =
  (inr (Null, Null),
   mkWorld tt
     [MakeToast (Str "offline") "error";
      ErrorLog "Error invoking get_active_tooling_version: offline";
      MakeToast (Str "offline") "error";
      ErrorLog "Error invoking get_active_tooling_version: offline"]).
Proof.
  apply (invoke_and_log_twice_rejected unit
           (settles_with (Rejected (Str "offline"))) Number_toString_sample
           "get_active_tooling_version" (fun _ => Null) None (mkWorld tt [])
           "offline" tt tt);
    reflexivity.
Defined.
